(** * emerald-academy-v2: the two page loaders and the static roadmap record

    A shallow embedding of

    - [src/routes/[lang=lang]/catalog/roadmaps/[name]/+page.ts]
      (the Content Resolver),
    - the page loader that fetches [/api/content/cadenceByExample]
      (the API-Backed Loader),
    - the [overview] record of the beginner dapp roadmap,

    together with the part of the JavaScript run time they touch: values,
    promises that settle, dynamic [import()], [fetch] and [try]/[catch]. *)

From Stdlib Require Import String Ascii List ZArith Bool Lia DecimalString.
Import ListNotations.
Local Open Scope string_scope.
Local Open Scope list_scope.
Set Warnings "-register-all".

(** ** JavaScript values *)

Module JS.

(** The values the loaders hand around.  Objects keep their own properties
    in insertion order.  [Exn] is an instance of [Error] (or of one of its
    subclasses, named by [ctor]) with its [message] and its optional
    [cause].  Numbers are only ever passed through, never computed with. *)
Inductive value : Type :=
| Undefined
| Null
| Bool (b : bool)
| Num (n : Z)
| Str (s : string)
| Arr (items : list value)
| Obj (props : list (string * value))
| Exn (ctor : string) (message : string) (cause : option value).

(** [new Error(message)] *)
Definition new_Error (message : string) : value := Exn "Error" message None.

(** What a promise settles to. *)
Inductive settled (A : Type) : Type :=
| Fulfilled (a : A)
| Rejected (reason : value).
Arguments Fulfilled {A} a.
Arguments Rejected {A} reason.

(** Own property lookup in a property list; a later duplicate wins, as in
    an object literal. *)
Fixpoint lookup (k : string) (props : list (string * value)) : option value :=
  match props with
  | [] => None
  | (k', v) :: rest =>
      match lookup k rest with
      | Some v' => Some v'
      | None => if String.eqb k k' then Some v else None
      end
  end.

(** [o.k] for an object [o]: a missing property reads as [undefined]. *)
Definition get (o : list (string * value)) (k : string) : value :=
  match lookup k o with
  | Some v => v
  | None => Undefined
  end.

(** [v.k] for any value [v] met here: only objects carry properties. *)
Definition prop (v : value) (k : string) : value :=
  match v with
  | Obj props => get props k
  | _ => Undefined
  end.

(** [Object.keys(v)] for the values that have own enumerable string keys
    worth naming here. *)
Definition keys (v : value) : list string :=
  match v with
  | Obj props => map fst props
  | _ => []
  end.

(** A module namespace object: the module's exports by name. *)
Definition namespace : Type := list (string * value).

(** The second argument of [fetch]. *)
Record request_init : Type := {
  init_method : option string;
  init_headers : list (string * string);
  init_body : option string
}.

(** The request a call [fetch(input, init)] sends: without [init] it is a
    [GET] with no headers of the caller and no body. *)
Record request : Type := {
  method : string;
  url : string;
  headers : list (string * string);
  body : option string
}.

Definition request_of (input : string) (init : option request_init) : request :=
  match init with
  | None => {| method := "GET"; url := input; headers := []; body := None |}
  | Some i =>
      {| method := match init_method i with Some m => m | None => "GET" end;
         url := input;
         headers := init_headers i;
         body := init_body i |}
  end.

(** A [Response]: its status line and what [response.json()] settles to
    (the decoded body, or the rejection of a body that does not decode). *)
Record response : Type := {
  status : Z;
  json : settled value
}.

(** [response.ok] *)
Definition ok (r : response) : bool := (200 <=? status r)%Z && (status r <=? 299)%Z.

(** The query component of a URL string: what follows the first [?]. *)
Fixpoint query_of (u : string) : option string :=
  match u with
  | EmptyString => None
  | String c rest => if Ascii.eqb c "?" then Some rest else query_of rest
  end.

(** A path-absolute URL string ([/a/b]) resolves against the origin of
    the page; [//host/...] and [scheme:...] do not. *)
Definition path_absolute (u : string) : bool :=
  match u with
  | String c1 EmptyString => Ascii.eqb c1 "/"
  | String c1 (String c2 _) =>
      Ascii.eqb c1 "/" && negb (Ascii.eqb c2 "/") && negb (Ascii.eqb c2 "\")
  | _ => false
  end.

End JS.

(** ** Programs: effects, exceptions and [await] *)

Module Async.
Import JS.

(** What a loader can ask of its surroundings.  [DynamicImport] is
    [import(specifier)], [Fetch] the [fetch] of the load event; both answer
    with what their promise settles to.  [ReadShared] and [WriteShared] are
    reads and writes of bindings that outlive one invocation (module-level
    variables). *)
Variant op : Type -> Type :=
| DynamicImport (specifier : string) : op (settled namespace)
| Fetch (input : string) (init : option request_init) : op (settled response)
| ReadShared (name : string) : op value
| WriteShared (name : string) (v : value) : op unit.

(** The body of an async function: it returns, throws, or performs an
    operation and goes on with the answer. *)
Inductive prog (A : Type) : Type :=
| Ret (a : A)
| Throw (e : value)
| Perform {X : Type} (o : op X) (k : X -> prog A).
Arguments Ret {A} a.
Arguments Throw {A} e.
Arguments Perform {A X} o k.

Fixpoint bind {A B : Type} (p : prog A) (f : A -> prog B) : prog B :=
  match p with
  | Ret a => f a
  | Throw e => Throw e
  | Perform o k => Perform o (fun x => bind (k x) f)
  end.

(** [try { p } catch (e) { h e }] *)
Fixpoint try_catch {A : Type} (p : prog A) (h : value -> prog A) : prog A :=
  match p with
  | Ret a => Ret a
  | Throw e => h e
  | Perform o k => Perform o (fun x => try_catch (k x) h)
  end.

(** [await] of a promise: its value, or its rejection thrown. *)
Definition settle {A : Type} (s : settled A) : prog A :=
  match s with
  | Fulfilled a => Ret a
  | Rejected e => Throw e
  end.

Definition await {A : Type} (o : op (settled A)) : prog A :=
  Perform o settle.

Declare Scope prog_scope.
Delimit Scope prog_scope with prog.
Notation "'const' x ':=' p ';' q" := (bind p (fun x => q))
  (at level 10, x name, p at level 100, q at level 200) : prog_scope.

(** *** The surroundings of an invocation *)

(** The static content set and the network: what [import()] of a specifier
    and the request of a [fetch] settle to. *)
Record world : Type := {
  resolve : string -> settled namespace;
  network : request -> settled response
}.

(** The bindings shared between invocations. *)
Definition store : Type := string -> value.

Definition update (st : store) (name : string) (v : value) : store :=
  fun n => if String.eqb n name then v else st n.

(** What an invocation did to its surroundings, in order. *)
Inductive event : Type :=
| Imported (specifier : string)
| Requested (r : request)
| SharedRead (name : string)
| SharedWritten (name : string) (v : value).

Record result (A : Type) : Type := {
  outcome : settled A;
  final : store;
  trace : list event
}.
Arguments outcome {A} r.
Arguments final {A} r.
Arguments trace {A} r.

Definition handle (w : world) (st : store) {X : Type} (o : op X)
  : X * store * event :=
  match o in op X return X * store * event with
  | DynamicImport s => (resolve w s, st, Imported s)
  | Fetch input init =>
      let r := request_of input init in (network w r, st, Requested r)
  | ReadShared n => (st n, st, SharedRead n)
  | WriteShared n v => (tt, update st n v, SharedWritten n v)
  end.

(** One invocation of an async function, run to the settling of the
    promise it returns. *)
Fixpoint run {A : Type} (w : world) (st : store) (p : prog A) : result A :=
  match p with
  | Ret a => {| outcome := Fulfilled a; final := st; trace := [] |}
  | Throw e => {| outcome := Rejected e; final := st; trace := [] |}
  | Perform o k =>
      let '(x, st', ev) := handle w st o in
      let r := run w st' (k x) in
      {| outcome := outcome r; final := final r; trace := ev :: trace r |}
  end.

End Async.

(** ** The hosting framework's load event *)

Module Kit.

(** The argument of a [PageLoad], as far as a loader can read route and
    request data from it; [P] is the route's parameter type.  The event's
    [fetch] is the operation [Async.Fetch]. *)
Record load_event (P : Type) : Type := {
  params : P;
  url : string;
  route_id : string
}.
Arguments params {P} l.
Arguments url {P} l.
Arguments route_id {P} l.

End Kit.

(** ** Static content: the beginner dapp roadmap *)

Module Content.
Import JS.

(** Modelled from the spec: the enumerations of [$lib/types/content/metadata]
    are not under src/; the members listed are the ones the sources name. *)
Inductive ContentTypeEnum : Type := Roadmap | Course.
Inductive ExpertiseEnum : Type := beginner.
Inductive SubjectsEnum : Type := Cadence.

(** Modelled from the spec: the interface [RoadmapOverview] of
    [$lib/types/content/roadmap.interface] is not under src/; the records
    below have the fields of the spec's data model, which are the fields of
    the object literal. *)
Module Metadata.
Record t : Type := {
  expertise : ExpertiseEnum;
  duration : string;
  prerequisites : list string;
  subjects : list SubjectsEnum
}.
End Metadata.

Module Summary.
Record t : Type := {
  title : string;
  excerpt : string;
  contentType : ContentTypeEnum;
  duration : string;
  subjects : list SubjectsEnum;
  url : string
}.
End Summary.

Module Chapter.
Record t : Type := {
  excerpt : string
}.
End Chapter.

Module RoadmapOverview.
Record t : Type := {
  title : string;
  contentType : ContentTypeEnum;
  slug : string;
  excerpt : string;
  metadata : Metadata.t;
  contents : list Summary.t;
  chapters : list Chapter.t
}.
End RoadmapOverview.

(** What the record's module takes from declarations that are not under
    src/: the run-time values of the enumeration members, [generateSlug],
    and the module's own [import.meta.url]. *)
Class Declarations : Type := {
  ContentTypeEnum_value : ContentTypeEnum -> value;
  ExpertiseEnum_value : ExpertiseEnum -> value;
  SubjectsEnum_value : SubjectsEnum -> value;
  generateSlug : string -> string;
  import_meta_url : string
}.

Section Overview.
Context {D : Declarations}.

Definition overview : RoadmapOverview.t := {|
  RoadmapOverview.title := "Beginner Dapp Roadmap";
  RoadmapOverview.contentType := Roadmap;
  RoadmapOverview.slug := generateSlug import_meta_url;
  RoadmapOverview.excerpt := "Lorem ipsum dolor sit amet.";
  RoadmapOverview.metadata := {|
    Metadata.expertise := beginner;
    Metadata.duration := "3 chapters";
    Metadata.prerequisites := ["javascript"];
    Metadata.subjects := [Cadence]
  |};
  RoadmapOverview.contents := [
    {| Summary.title := "Beginner Cadence Course";
       Summary.excerpt := "Lorem ipsum";
       Summary.contentType := Course;
       Summary.duration := "4 chapters";
       Summary.subjects := [Cadence];
       Summary.url := "catalog/courses/beginner-cadence" |};
    {| Summary.title := "Basic Dapp";
       Summary.excerpt := "Lorem ipsum";
       Summary.contentType := Course;
       Summary.duration := "4 chapters";
       Summary.subjects := [Cadence];
       Summary.url := "catalog/courses/basic-dapp" |}
  ];
  RoadmapOverview.chapters := [
    {| Chapter.excerpt := "This is the first chapter" |};
    {| Chapter.excerpt := "This is the second chapter" |};
    {| Chapter.excerpt := "This is the third chapter" |}
  ]
|}.

(** The records as the objects they are at run time, properties in the
    order of the literal. *)
Definition js_metadata (m : Metadata.t) : value :=
  Obj [("expertise", ExpertiseEnum_value (Metadata.expertise m));
       ("duration", Str (Metadata.duration m));
       ("prerequisites", Arr (map Str (Metadata.prerequisites m)));
       ("subjects", Arr (map SubjectsEnum_value (Metadata.subjects m)))].

Definition js_summary (c : Summary.t) : value :=
  Obj [("title", Str (Summary.title c));
       ("excerpt", Str (Summary.excerpt c));
       ("contentType", ContentTypeEnum_value (Summary.contentType c));
       ("duration", Str (Summary.duration c));
       ("subjects", Arr (map SubjectsEnum_value (Summary.subjects c)));
       ("url", Str (Summary.url c))].

Definition js_chapter (c : Chapter.t) : value :=
  Obj [("excerpt", Str (Chapter.excerpt c))].

Definition js_overview (o : RoadmapOverview.t) : value :=
  Obj [("title", Str (RoadmapOverview.title o));
       ("contentType", ContentTypeEnum_value (RoadmapOverview.contentType o));
       ("slug", Str (RoadmapOverview.slug o));
       ("excerpt", Str (RoadmapOverview.excerpt o));
       ("metadata", js_metadata (RoadmapOverview.metadata o));
       ("contents", Arr (map js_summary (RoadmapOverview.contents o)));
       ("chapters", Arr (map js_chapter (RoadmapOverview.chapters o)))].

(** The namespace of the record's module: its one export. *)
Definition overview_module : namespace := [("overview", js_overview overview)].

End Overview.

(** The count a duration text such as ["3 chapters"] announces. *)
Definition chapters_text (n : nat) : string :=
  NilEmpty.string_of_uint (Nat.to_uint n) ++ " chapters".

End Content.

(** ** The Content Resolver: [catalog/roadmaps/[name]/+page.ts] *)

Module RoadmapPage.
Import JS Async.

(** The parameters of the route [[lang=lang]/catalog/roadmaps/[name]]. *)
Record route_params : Type := {
  lang : string;
  name : string
}.

(** The template literal of the [import()]. *)
Definition specifier (params : route_params) : string :=
  "../../../../../lib/content/roadmaps/" ++ name params ++ "/" ++ lang params
    ++ "/overview.ts".

Definition load (ev : Kit.load_event route_params) : prog value :=
  try_catch
    (const roadmapFile := await (DynamicImport (specifier (Kit.params ev)));
     Ret (Obj [("roadmap", get roadmapFile "overview")]))%prog
    (fun e => Throw (new_Error "You missed it")).

End RoadmapPage.

(** ** The API-Backed Loader *)

Module ApiPage.
Import JS Async.

Definition endpoint : string := "/api/content/cadenceByExample".

Definition load (ev : Kit.load_event (list (string * string))) : prog value :=
  (const response := await (Fetch endpoint None);
   const content := settle (json response);
   Ret (Obj [("content", content)]))%prog.

End ApiPage.

(** ** Programs that leave the shared bindings alone *)

Module Isolation.
Import JS Async.

(** No operation of the program reads or writes a shared binding, on
    whatever answers it gets. *)
Inductive stateless {A : Type} : prog A -> Prop :=
| stateless_Ret (a : A) : stateless (Ret a)
| stateless_Throw (e : value) : stateless (Throw e)
| stateless_import (s : string) (k : settled namespace -> prog A) :
    (forall x, stateless (k x)) -> stateless (Perform (DynamicImport s) k)
| stateless_fetch (input : string) (init : option request_init)
    (k : settled response -> prog A) :
    (forall x, stateless (k x)) -> stateless (Perform (Fetch input init) k).

Definition touches_shared (ev : event) : bool :=
  match ev with
  | SharedRead _ | SharedWritten _ _ => true
  | Imported _ | Requested _ => false
  end.

End Isolation.

(** ** Sample surroundings to evaluate the loaders in *)

Module Sample.
Import JS Async Content.

(** String enumerations valued by the member's name, and a slug that is
    the module's address. *)
Definition declarations : Declarations := {|
  ContentTypeEnum_value := fun c =>
    match c with Roadmap => Str "Roadmap" | Course => Str "Course" end;
  ExpertiseEnum_value := fun e => match e with beginner => Str "beginner" end;
  SubjectsEnum_value := fun s => match s with Cadence => Str "Cadence" end;
  generateSlug := fun address => address;
  import_meta_url := "/src/lib/content/roadmaps/beginner-dapp-roadmap/en/overview.ts"
|}.

(** The record of the beginner dapp roadmap under these declarations, as
    the module exports it. *)
Definition roadmap_record : value :=
  @js_overview declarations (@overview declarations).

(** A content set of one module, the beginner dapp roadmap in English; any
    other specifier is rejected with a reason naming it. *)
Definition content (s : string) : settled namespace :=
  if String.eqb s
       "../../../../../lib/content/roadmaps/beginner-dapp-roadmap/en/overview.ts"
  then Fulfilled (@overview_module declarations)
  else Rejected (Exn "Error" ("Unknown variable dynamic import: " ++ s) None).

(** A network whose every request is answered [status] with a body that
    [response.json()] settles to [decoded]. *)
Definition answering (status : Z) (decoded : settled value) : world := {|
  resolve := content;
  network := fun _ => Fulfilled {| JS.status := status; json := decoded |}
|}.

(** A network that is down. *)
Definition offline : world := {|
  resolve := content;
  network := fun _ => Rejected (Exn "TypeError" "fetch failed" None)
|}.

Definition foo_bar : value := Obj [("foo", Str "bar")].
Definition not_found : value := Obj [("message", Str "Not Found")].
Definition syntax_error : value :=
  Exn "SyntaxError" "Unexpected token < in JSON at position 0" None.

Definition empty_store : store := fun _ => Undefined.
Definition used_store : store := update empty_store "visits" (Num 7).

Definition roadmap_event (lang name : string)
  : Kit.load_event RoadmapPage.route_params := {|
  Kit.params := {| RoadmapPage.lang := lang; RoadmapPage.name := name |};
  Kit.url := "/" ++ lang ++ "/catalog/roadmaps/" ++ name;
  Kit.route_id := "/[lang=lang]/catalog/roadmaps/[name]"
|}.

(** A load event for the API loader's page; its route is not known from
    the sources, and the loader reads none of it. *)
Definition api_event (params : list (string * string))
  : Kit.load_event (list (string * string)) := {|
  Kit.params := params;
  Kit.url := "/en/cadence-by-example";
  Kit.route_id := "/[lang=lang]/cadence-by-example"
|}.

End Sample.

(** ** Route parameters with and without a path separator *)

Module Segments.
Import JS Async.

(** Whether a route parameter holds a [/]; a parameter is decoded after
    the route is matched, so [%2F] in the address puts one there. *)
Fixpoint has_slash (s : string) : bool :=
  match s with
  | EmptyString => false
  | String c rest => Ascii.eqb c "/" || has_slash rest
  end.

(** A content set of one module that has a default export and no export
    [overview]. *)
Definition draft_content (s : string) : settled namespace :=
  if String.eqb s "../../../../../lib/content/roadmaps/draft/en/overview.ts"
  then Fulfilled [("default", Obj [("title", Str "Draft")])]
  else Rejected (Exn "Error" ("Unknown variable dynamic import: " ++ s) None).

Definition draft_world : world := {|
  resolve := draft_content;
  network := fun _ => Rejected (Exn "TypeError" "fetch failed" None)
|}.

End Segments.

(** * Properties *)

Import JS Async Isolation.

(** ** Running composed programs *)

Section RunFacts.
Context {A B : Type}.
Variable w : world.

Lemma run_bind (p : prog A) (f : A -> prog B) (st : store) :
  run w st (bind p f) =
  match outcome (run w st p) with
  | Fulfilled a =>
      let r := run w (final (run w st p)) (f a) in
      {| outcome := outcome r; final := final r;
         trace := trace (run w st p) ++ trace r |}
  | Rejected e =>
      {| outcome := Rejected e; final := final (run w st p);
         trace := trace (run w st p) |}
  end.
Proof.
  revert st. induction p as [a | e | X o k IH]; intros st; simpl.
  - destruct (run w st (f a)); reflexivity.
  - reflexivity.
  - destruct (handle w st o) as [[x st'] ev]. rewrite IH.
    destruct (outcome (run w st' (k x))); reflexivity.
Qed.

Lemma run_try_catch (p : prog A) (h : value -> prog A) (st : store) :
  run w st (try_catch p h) =
  match outcome (run w st p) with
  | Fulfilled a =>
      {| outcome := Fulfilled a; final := final (run w st p);
         trace := trace (run w st p) |}
  | Rejected e =>
      let r := run w (final (run w st p)) (h e) in
      {| outcome := outcome r; final := final r;
         trace := trace (run w st p) ++ trace r |}
  end.
Proof.
  revert st. induction p as [a | e | X o k IH]; intros st; simpl.
  - reflexivity.
  - destruct (run w st (h e)); reflexivity.
  - destruct (handle w st o) as [[x st'] ev]. rewrite IH.
    destruct (outcome (run w st' (k x))); reflexivity.
Qed.

End RunFacts.

Section StatelessFacts.
Context {A : Type}.

Lemma stateless_bind {B : Type} (p : prog A) (f : A -> prog B) :
  stateless p -> (forall a, stateless (f a)) -> stateless (bind p f).
Proof.
  intros Hp Hf. induction Hp; simpl; auto using @stateless.
  all: constructor; auto.
Qed.

Lemma stateless_try_catch (p : prog A) (h : value -> prog A) :
  stateless p -> (forall e, stateless (h e)) -> stateless (try_catch p h).
Proof.
  intros Hp Hh. induction Hp; simpl; auto using @stateless.
  all: constructor; auto.
Qed.

Lemma stateless_settle (s : settled A) : stateless (settle s).
Proof. destruct s; constructor. Qed.

(** A stateless program hands the store back as it got it... *)
Lemma stateless_final (p : prog A) (w : world) (st : store) :
  stateless p -> final (run w st p) = st.
Proof.
  intros Hp. induction Hp as [a | e | s k _ IH | input init k _ IH]; simpl; auto.
Qed.

(** ... does the same whatever the store holds... *)
Lemma stateless_run (p : prog A) (w : world) (st st' : store) :
  stateless p ->
  outcome (run w st p) = outcome (run w st' p) /\
  trace (run w st p) = trace (run w st' p).
Proof.
  intros Hp. induction Hp as [a | e | s k _ IH | input init k _ IH]; simpl; auto.
  - destruct (IH (resolve w s)) as [-> ->]. auto.
  - destruct (IH (network w (request_of input init))) as [-> ->]. auto.
Qed.

(** ... and no event of its trace is a read or a write of a shared
    binding. *)
Lemma stateless_trace (p : prog A) (w : world) (st : store) :
  stateless p ->
  Forall (fun ev => touches_shared ev = false) (trace (run w st p)).
Proof.
  intros Hp.
  induction Hp as [a | e | s k _ IH | input init k _ IH]; simpl; auto.
Qed.

End StatelessFacts.

(** ** The loaders are stateless *)

Lemma roadmap_load_stateless (ev : Kit.load_event RoadmapPage.route_params) :
  stateless (RoadmapPage.load ev).
Proof.
  unfold RoadmapPage.load. apply stateless_try_catch.
  - apply stateless_bind.
    + constructor. intros x. apply stateless_settle.
    + intros roadmapFile. constructor.
  - intros e. constructor.
Qed.

Lemma api_load_stateless (ev : Kit.load_event (list (string * string))) :
  stateless (ApiPage.load ev).
Proof.
  unfold ApiPage.load. apply stateless_bind.
  - constructor. intros x. apply stateless_settle.
  - intros response. apply stateless_bind.
    + apply stateless_settle.
    + intros content. constructor.
Qed.

(** ** The Content Resolver *)

Section ContentResolver.
Variable w : world.
Variable st : store.
Variable ev : Kit.load_event RoadmapPage.route_params.

Local Abbreviation spec := (RoadmapPage.specifier (Kit.params ev)).

(** The whole run of the resolver, by what the import settles to. *)
Lemma roadmap_load_run :
  run w st (RoadmapPage.load ev) =
  {| outcome :=
       match resolve w spec with
       | Fulfilled roadmapFile =>
           Fulfilled (Obj [("roadmap", get roadmapFile "overview")])
       | Rejected _ => Rejected (new_Error "You missed it")
       end;
     final := st;
     trace := [Imported spec] |}.
Proof.
  unfold RoadmapPage.load. rewrite run_try_catch, run_bind. simpl.
  destruct (resolve w spec); reflexivity.
Qed.

(** A module that has no export [overview] still resolves: the resolver
    returns [{ roadmap: undefined }] and does not throw. *)
Lemma roadmap_load_without_export (roadmapFile : namespace) :
  resolve w spec = Fulfilled roadmapFile ->
  lookup "overview" roadmapFile = None ->
  outcome (run w st (RoadmapPage.load ev)) =
  Fulfilled (Obj [("roadmap", Undefined)]).
Proof.
  intros Hm Hx. rewrite roadmap_load_run. simpl. rewrite Hm.
  unfold get. rewrite Hx. reflexivity.
Qed.

End ContentResolver.

(** C1. For every (language, name) whose overview module, the one at
    [../../../../../lib/content/roadmaps/<name>/<lang>/overview.ts], resolves
    and exports an [overview] record, the resolver returns an object whose
    [roadmap] is that record; for ([en], [beginner-dapp-roadmap]), resolved
    to the module of the beginner dapp roadmap, it returns the defined
    record, whose title is [Beginner Dapp Roadmap]. *)
Theorem resolver_returns_defined_record
  (D : Content.Declarations) (w : world) (st : store)
  (ev : Kit.load_event RoadmapPage.route_params) :
  (forall (roadmapFile : namespace) (record : value),
      resolve w ("../../../../../lib/content/roadmaps/"
                   ++ RoadmapPage.name (Kit.params ev) ++ "/"
                   ++ RoadmapPage.lang (Kit.params ev) ++ "/overview.ts")
      = Fulfilled roadmapFile ->
      lookup "overview" roadmapFile = Some record ->
      outcome (run w st (RoadmapPage.load ev)) =
      Fulfilled (Obj [("roadmap", record)])) /\
  (Kit.params ev =
     {| RoadmapPage.lang := "en"; RoadmapPage.name := "beginner-dapp-roadmap" |} ->
   resolve w "../../../../../lib/content/roadmaps/beginner-dapp-roadmap/en/overview.ts"
     = Fulfilled (@Content.overview_module D) ->
   outcome (run w st (RoadmapPage.load ev)) =
     Fulfilled (Obj [("roadmap", @Content.js_overview D Content.overview)]) /\
   prop (@Content.js_overview D Content.overview) "title"
     = Str "Beginner Dapp Roadmap").
Proof.
  split.
  - intros roadmapFile record Hm Hx. rewrite roadmap_load_run.
    unfold RoadmapPage.specifier. cbn [outcome].
    rewrite Hm. unfold get. rewrite Hx. reflexivity.
  - intros Hp Hm. rewrite roadmap_load_run. simpl. rewrite Hp.
    change (RoadmapPage.specifier _)
      with "../../../../../lib/content/roadmaps/beginner-dapp-roadmap/en/overview.ts".
    rewrite Hm. split; reflexivity.
Qed.

Lemma resolver_returns_defined_record_witness :
  outcome (run (Sample.answering 200 (Fulfilled Sample.foo_bar)) Sample.empty_store
             (RoadmapPage.load (Sample.roadmap_event "en" "beginner-dapp-roadmap")))
  = Fulfilled
      (Obj [("roadmap", Sample.roadmap_record)]) /\
  outcome (run (Sample.answering 200 (Fulfilled Sample.foo_bar)) Sample.used_store
             (RoadmapPage.load (Sample.roadmap_event "en" "beginner-dapp-roadmap")))
  = Fulfilled
      (Obj [("roadmap", Sample.roadmap_record)]).
Proof.
  split.
  - apply (proj1 (resolver_returns_defined_record Sample.declarations
                    (Sample.answering 200 (Fulfilled Sample.foo_bar))
                    Sample.empty_store
                    (Sample.roadmap_event "en" "beginner-dapp-roadmap"))
             (@Content.overview_module Sample.declarations)); reflexivity.
  - apply (proj2 (resolver_returns_defined_record Sample.declarations
                    (Sample.answering 200 (Fulfilled Sample.foo_bar))
                    Sample.used_store
                    (Sample.roadmap_event "en" "beginner-dapp-roadmap")));
      reflexivity.
Defined.

(** C2, as stated, fails: a pair whose module resolves but exports no
    [overview] has no corresponding record, and the resolver does not throw
    there; it returns [{ roadmap: undefined }]. *)
Lemma resolver_returns_without_record :
  resolve Segments.draft_world
    "../../../../../lib/content/roadmaps/draft/en/overview.ts"
  = Fulfilled [("default", Obj [("title", Str "Draft")])] /\
  lookup "overview" [("default", Obj [("title", Str "Draft")])] = None /\
  outcome (run Segments.draft_world Sample.empty_store
             (RoadmapPage.load (Sample.roadmap_event "en" "draft")))
  = Fulfilled (Obj [("roadmap", Undefined)]) /\
  ~ (forall (w : world) (st : store)
            (ev : Kit.load_event RoadmapPage.route_params),
        ~ (exists (roadmapFile : namespace) (record : value),
              resolve w ("../../../../../lib/content/roadmaps/"
                           ++ RoadmapPage.name (Kit.params ev) ++ "/"
                           ++ RoadmapPage.lang (Kit.params ev) ++ "/overview.ts")
              = Fulfilled roadmapFile /\
              lookup "overview" roadmapFile = Some record) ->
        outcome (run w st (RoadmapPage.load ev))
        = Rejected (Exn "Error" "You missed it" None)).
Proof.
  split; [reflexivity | split; [reflexivity | split; [reflexivity |]]].
  intros claim.
  assert (H : outcome (run Segments.draft_world Sample.empty_store
                         (RoadmapPage.load (Sample.roadmap_event "en" "draft")))
              = Rejected (Exn "Error" "You missed it" None)).
  { apply claim. intros [roadmapFile [record [Hm Hx]]].
    change (Fulfilled [("default", Obj [("title", Str "Draft")])]
            = Fulfilled roadmapFile) in Hm.
    inversion Hm; subst. discriminate Hx. }
  discriminate H.
Qed.

(** C2, amended. Whenever the dynamic import of the module at
    [../../../../../lib/content/roadmaps/<name>/<lang>/overview.ts] rejects,
    for whatever reason, the resolver throws an [Error] whose message is
    exactly [You missed it]; the error carries no cause, and nothing of the
    import's own reason.  A module that resolves without an export
    [overview] is no failure: the resolver returns [{ roadmap: undefined }]. *)
Theorem resolver_failure_is_uniform
  (w : world) (st : store) (ev : Kit.load_event RoadmapPage.route_params) :
  (forall reason : value,
      resolve w ("../../../../../lib/content/roadmaps/"
                   ++ RoadmapPage.name (Kit.params ev) ++ "/"
                   ++ RoadmapPage.lang (Kit.params ev) ++ "/overview.ts")
      = Rejected reason ->
      outcome (run w st (RoadmapPage.load ev))
      = Rejected (Exn "Error" "You missed it" None)) /\
  (forall roadmapFile : namespace,
      resolve w ("../../../../../lib/content/roadmaps/"
                   ++ RoadmapPage.name (Kit.params ev) ++ "/"
                   ++ RoadmapPage.lang (Kit.params ev) ++ "/overview.ts")
      = Fulfilled roadmapFile ->
      lookup "overview" roadmapFile = None ->
      outcome (run w st (RoadmapPage.load ev))
      = Fulfilled (Obj [("roadmap", Undefined)])).
Proof.
  rewrite roadmap_load_run. unfold RoadmapPage.specifier. cbn [outcome]. split.
  - intros reason Hm. rewrite Hm. reflexivity.
  - intros roadmapFile Hm Hx. rewrite Hm. unfold get. rewrite Hx. reflexivity.
Qed.

Lemma resolver_failure_is_uniform_witness :
  outcome (run Sample.offline Sample.empty_store
             (RoadmapPage.load (Sample.roadmap_event "en" "nonexistent-roadmap")))
  = Rejected (Exn "Error" "You missed it" None) /\
  outcome (run Segments.draft_world Sample.used_store
             (RoadmapPage.load (Sample.roadmap_event "en" "draft")))
  = Fulfilled (Obj [("roadmap", Undefined)]).
Proof.
  split.
  - apply (proj1 (resolver_failure_is_uniform Sample.offline Sample.empty_store
                    (Sample.roadmap_event "en" "nonexistent-roadmap"))
             (Exn "Error"
                ("Unknown variable dynamic import: "
                 ++ "../../../../../lib/content/roadmaps/nonexistent-roadmap/en/overview.ts")
                None)).
    reflexivity.
  - apply (proj2 (resolver_failure_is_uniform Segments.draft_world
                    Sample.used_store (Sample.roadmap_event "en" "draft"))
             [("default", Obj [("title", Str "Draft")])]);
      reflexivity.
Defined.

(** C8. When the resolver returns, its result is an object with the one
    property [roadmap] and no other. *)
Theorem resolver_result_has_one_field
  (w : world) (st : store) (ev : Kit.load_event RoadmapPage.route_params)
  (v : value) :
  outcome (run w st (RoadmapPage.load ev)) = Fulfilled v ->
  keys v = ["roadmap"] /\ exists roadmap, v = Obj [("roadmap", roadmap)].
Proof.
  rewrite roadmap_load_run. simpl.
  destruct (resolve w _) as [roadmapFile | reason]; intros H;
    inversion H; subst; simpl; eauto.
Qed.

Lemma resolver_result_has_one_field_witness :
  keys (Obj [("roadmap", Sample.roadmap_record)])
  = ["roadmap"] /\
  exists roadmap,
    Obj [("roadmap", Sample.roadmap_record)]
    = Obj [("roadmap", roadmap)].
Proof.
  apply (resolver_result_has_one_field Sample.offline Sample.empty_store
           (Sample.roadmap_event "en" "beginner-dapp-roadmap")).
  reflexivity.
Defined.

(** *** The import specifier *)

Lemma substring_skip (a s : string) (n : nat) :
  substring (String.length a) n (a ++ s) = substring 0 n s.
Proof. induction a as [| c a IH]; simpl; auto. Qed.

Lemma substring_prefix (b c : string) :
  substring 0 (String.length b) (b ++ c) = b.
Proof.
  induction b as [| x b IH]; simpl.
  - destruct c; reflexivity.
  - rewrite IH. reflexivity.
Qed.

Lemma substring_middle (a b c : string) :
  substring (String.length a) (String.length b) (a ++ b ++ c) = b.
Proof. rewrite substring_skip. apply substring_prefix. Qed.

Lemma length_append (a b : string) :
  String.length (a ++ b) = String.length a + String.length b.
Proof. induction a as [| c a IH]; simpl; auto. Qed.

Lemma append_assoc (a b c : string) : ((a ++ b) ++ c = a ++ b ++ c)%string.
Proof. induction a as [| x a IH]; simpl; congruence. Qed.

(** C5. For all strings [lang] and [name], the resolver's one and only
    operation is the dynamic import of the path
    [../../../../../lib/content/roadmaps/<name>/<lang>/overview.ts], in
    which both parameters stand as they came; what it returns depends on the
    surroundings through what that one import settles to and nothing
    else. *)
Theorem resolver_imports_interpolated_path
  (lang name address route : string) (w : world) (st : store) :
  trace (run w st
           (RoadmapPage.load
              {| Kit.params := {| RoadmapPage.lang := lang; RoadmapPage.name := name |};
                 Kit.url := address; Kit.route_id := route |}))
  = [Imported ("../../../../../lib/content/roadmaps/" ++ name ++ "/" ++ lang
                 ++ "/overview.ts")] /\
  substring 36 (String.length name)
    ("../../../../../lib/content/roadmaps/" ++ name ++ "/" ++ lang
       ++ "/overview.ts") = name /\
  substring (36 + String.length name + 1) (String.length lang)
    ("../../../../../lib/content/roadmaps/" ++ name ++ "/" ++ lang
       ++ "/overview.ts") = lang /\
  forall (w' : world) (st' : store),
    resolve w' ("../../../../../lib/content/roadmaps/" ++ name ++ "/" ++ lang
                  ++ "/overview.ts")
    = resolve w ("../../../../../lib/content/roadmaps/" ++ name ++ "/" ++ lang
                   ++ "/overview.ts") ->
    outcome (run w' st'
               (RoadmapPage.load
                  {| Kit.params :=
                       {| RoadmapPage.lang := lang; RoadmapPage.name := name |};
                     Kit.url := address; Kit.route_id := route |}))
    = outcome (run w st
                 (RoadmapPage.load
                    {| Kit.params :=
                         {| RoadmapPage.lang := lang; RoadmapPage.name := name |};
                       Kit.url := address; Kit.route_id := route |})).
Proof.
  repeat split.
  - rewrite roadmap_load_run. reflexivity.
  - apply (substring_middle "../../../../../lib/content/roadmaps/" name).
  - replace (36 + String.length name + 1)
      with (String.length ("../../../../../lib/content/roadmaps/" ++ name ++ "/")).
    + rewrite <- (substring_middle
                    ("../../../../../lib/content/roadmaps/" ++ name ++ "/")
                    lang "/overview.ts") at 3.
      rewrite !append_assoc. reflexivity.
    + rewrite !length_append. simpl. lia.
  - intros w' st' Hsame. rewrite !roadmap_load_run.
    unfold RoadmapPage.specifier.
    cbn [outcome Kit.params RoadmapPage.lang RoadmapPage.name].
    rewrite Hsame. reflexivity.
Qed.

Lemma resolver_imports_interpolated_path_witness :
  outcome (run Sample.offline Sample.used_store
             (RoadmapPage.load (Sample.roadmap_event "en" "beginner-dapp-roadmap")))
  = outcome (run (Sample.answering 200 (Fulfilled Sample.foo_bar)) Sample.empty_store
               (RoadmapPage.load (Sample.roadmap_event "en" "beginner-dapp-roadmap"))).
Proof.
  apply (proj2 (proj2 (proj2
           (resolver_imports_interpolated_path "en" "beginner-dapp-roadmap"
              "/en/catalog/roadmaps/beginner-dapp-roadmap"
              "/[lang=lang]/catalog/roadmaps/[name]"
              (Sample.answering 200 (Fulfilled Sample.foo_bar))
              Sample.empty_store)))).
  reflexivity.
Defined.

(** ** The API-Backed Loader *)

Section ApiLoader.
Variable w : world.
Variable st : store.
Variable ev : Kit.load_event (list (string * string)).

(** The request of the loader's one [fetch]. *)
Local Abbreviation api_request := (request_of ApiPage.endpoint None).

(** The whole run of the loader, by what the fetch and the decoding of its
    response settle to. *)
Lemma api_load_run :
  run w st (ApiPage.load ev) =
  {| outcome :=
       match network w api_request with
       | Fulfilled response =>
           match json response with
           | Fulfilled content => Fulfilled (Obj [("content", content)])
           | Rejected reason => Rejected reason
           end
       | Rejected reason => Rejected reason
       end;
     final := st;
     trace := [Requested api_request] |}.
Proof.
  unfold ApiPage.load, await. simpl.
  destruct (network w _) as [response | reason]; simpl; auto.
  destruct (json response); reflexivity.
Qed.

End ApiLoader.

(** The loader's result is decided by what its response decodes to, not
    by the response's status, the store or the load event. *)
Lemma api_load_outcome_by_body
  (w w' : world) (st st' : store)
  (ev ev' : Kit.load_event (list (string * string)))
  (response response' : response) :
  network w (request_of ApiPage.endpoint None) = Fulfilled response ->
  network w' (request_of ApiPage.endpoint None) = Fulfilled response' ->
  json response = json response' ->
  outcome (run w st (ApiPage.load ev)) = outcome (run w' st' (ApiPage.load ev')).
Proof.
  intros H H' Hbody. rewrite !api_load_run. cbn [outcome].
  rewrite H, H', Hbody. reflexivity.
Qed.

(** C3. For every response whose body decodes to [J], the loader returns
    exactly [{ content: J }]: the decoded body as it is. *)
Theorem api_load_passes_body_through
  (w : world) (st : store) (ev : Kit.load_event (list (string * string)))
  (response : response) (J : value) :
  network w (request_of ApiPage.endpoint None) = Fulfilled response ->
  json response = Fulfilled J ->
  outcome (run w st (ApiPage.load ev)) = Fulfilled (Obj [("content", J)]).
Proof.
  intros Hfetch Hjson. rewrite api_load_run. cbn [outcome].
  rewrite Hfetch, Hjson. reflexivity.
Qed.

Lemma api_load_passes_body_through_witness :
  outcome (run (Sample.answering 200 (Fulfilled Sample.foo_bar)) Sample.empty_store
             (ApiPage.load (Sample.api_event [("lang", "en")])))
  = Fulfilled (Obj [("content", Obj [("foo", Str "bar")])]).
Proof.
  apply (api_load_passes_body_through
           (Sample.answering 200 (Fulfilled Sample.foo_bar)) Sample.empty_store
           (Sample.api_event [("lang", "en")])
           {| status := 200; json := Fulfilled Sample.foo_bar |} Sample.foo_bar);
    reflexivity.
Defined.

(** C4, as stated, fails: a response with status 404 whose body decodes
    is not a failure to the loader, which returns the decoded body of the
    error response as its [content]. *)
Lemma api_load_returns_non_2xx_body :
  ok {| status := 404; json := Fulfilled Sample.not_found |} = false /\
  outcome (run (Sample.answering 404 (Fulfilled Sample.not_found)) Sample.empty_store
             (ApiPage.load (Sample.api_event [])))
  = Fulfilled (Obj [("content", Obj [("message", Str "Not Found")])]) /\
  ~ (forall (w : world) (st : store) (ev : Kit.load_event (list (string * string)))
            (response : response),
        network w (request_of ApiPage.endpoint None) = Fulfilled response ->
        ok response = false ->
        exists reason, outcome (run w st (ApiPage.load ev)) = Rejected reason).
Proof.
  split; [reflexivity | split; [reflexivity |]].
  intros claim.
  destruct (claim (Sample.answering 404 (Fulfilled Sample.not_found))
              Sample.empty_store (Sample.api_event [])
              {| status := 404; json := Fulfilled Sample.not_found |}
              eq_refl eq_refl) as [reason H].
  discriminate H.
Qed.

(** C4, amended. The loader fails exactly when its fetch rejects or the
    body of the response does not decode, and then with that very reason:
    nothing is caught on the way.  A response that is not 2xx and whose body
    decodes to [J] is no failure: the loader returns [{ content: J }]. *)
Theorem api_load_propagates_failures
  (w : world) (st : store) (ev : Kit.load_event (list (string * string))) :
  (forall reason : value,
      outcome (run w st (ApiPage.load ev)) = Rejected reason <->
      (network w (request_of ApiPage.endpoint None) = Rejected reason \/
       exists response : response,
         network w (request_of ApiPage.endpoint None) = Fulfilled response /\
         json response = Rejected reason)) /\
  (forall (response : response) (J : value),
      network w (request_of ApiPage.endpoint None) = Fulfilled response ->
      ok response = false ->
      json response = Fulfilled J ->
      outcome (run w st (ApiPage.load ev)) = Fulfilled (Obj [("content", J)])).
Proof.
  rewrite api_load_run. cbn [outcome]. split.
  - intros reason.
    destruct (network w _) as [response | e] eqn:Hfetch.
    + destruct (json response) as [J | e] eqn:Hjson; split.
      * discriminate.
      * intros [H | [r [Hr Hj]]]; [discriminate |].
        inversion Hr; subst. congruence.
      * intros H. inversion H; subst. right. exists response. auto.
      * intros [H | [r [Hr Hj]]]; [discriminate |].
        inversion Hr; subst. congruence.
    + split.
      * intros H. inversion H; subst. auto.
      * intros [H | [r [Hr _]]]; [congruence | discriminate].
  - intros response J Hfetch _ Hjson.
    rewrite Hfetch, Hjson. reflexivity.
Qed.

Lemma api_load_propagates_failures_witness :
  outcome (run Sample.offline Sample.empty_store (ApiPage.load (Sample.api_event [])))
  = Rejected (Exn "TypeError" "fetch failed" None) /\
  outcome (run (Sample.answering 200 (Rejected Sample.syntax_error)) Sample.empty_store
             (ApiPage.load (Sample.api_event [])))
  = Rejected Sample.syntax_error /\
  outcome (run (Sample.answering 404 (Fulfilled Sample.not_found)) Sample.empty_store
             (ApiPage.load (Sample.api_event [])))
  = Fulfilled (Obj [("content", Sample.not_found)]).
Proof.
  split; [| split].
  - apply (proj1 (api_load_propagates_failures Sample.offline Sample.empty_store
                    (Sample.api_event []))).
    left. reflexivity.
  - apply (proj1 (api_load_propagates_failures
                    (Sample.answering 200 (Rejected Sample.syntax_error))
                    Sample.empty_store (Sample.api_event []))).
    right. exists {| status := 200; json := Rejected Sample.syntax_error |}.
    split; reflexivity.
  - apply (proj2 (api_load_propagates_failures
                    (Sample.answering 404 (Fulfilled Sample.not_found))
                    Sample.empty_store (Sample.api_event []))
             {| status := 404; json := Fulfilled Sample.not_found |});
      reflexivity.
Defined.

(** C6. Every invocation of the loader, whatever its load event and its
    surroundings, performs exactly one operation: the request
    [GET /api/content/cadenceByExample] with no headers and no body; the
    address is a path on the page's own origin and has no query. *)
Theorem api_load_issues_one_get
  (w : world) (st : store) (ev : Kit.load_event (list (string * string))) :
  trace (run w st (ApiPage.load ev))
  = [Requested {| method := "GET"; url := "/api/content/cadenceByExample";
                  headers := []; body := None |}] /\
  path_absolute ApiPage.endpoint = true /\
  query_of ApiPage.endpoint = None.
Proof.
  rewrite api_load_run. repeat split.
Qed.

(** C9. The loader's result does not depend on the load event: any two
    events (route parameters, address, route) give the same run in the same
    surroundings, and across surroundings the result follows what the fetched
    response decodes to and nothing else. *)
Theorem api_load_ignores_route_input
  (w : world) (st : store) (ev ev' : Kit.load_event (list (string * string))) :
  run w st (ApiPage.load ev) = run w st (ApiPage.load ev') /\
  forall (w' : world) (st' : store) (response response' : response),
    network w (request_of ApiPage.endpoint None) = Fulfilled response ->
    network w' (request_of ApiPage.endpoint None) = Fulfilled response' ->
    json response = json response' ->
    outcome (run w st (ApiPage.load ev)) = outcome (run w' st' (ApiPage.load ev')).
Proof.
  split.
  - rewrite !api_load_run. reflexivity.
  - intros w' st' response response'. apply api_load_outcome_by_body.
Qed.

Lemma api_load_ignores_route_input_witness :
  outcome (run (Sample.answering 200 (Fulfilled Sample.foo_bar)) Sample.empty_store
             (ApiPage.load (Sample.api_event [("lang", "en")])))
  = outcome (run (Sample.answering 203 (Fulfilled Sample.foo_bar)) Sample.used_store
               (ApiPage.load (Sample.api_event [("lang", "fr"); ("name", "x")]))).
Proof.
  apply (proj2 (api_load_ignores_route_input
                  (Sample.answering 200 (Fulfilled Sample.foo_bar))
                  Sample.empty_store
                  (Sample.api_event [("lang", "en")])
                  (Sample.api_event [("lang", "fr"); ("name", "x")]))
           (Sample.answering 203 (Fulfilled Sample.foo_bar)) Sample.used_store
           {| status := 200; json := Fulfilled Sample.foo_bar |}
           {| status := 203; json := Fulfilled Sample.foo_bar |});
    reflexivity.
Defined.

(** ** Both loaders, one invocation after another *)

(** C7. Both loaders are deterministic and isolated.  Two invocations of
    the resolver with the same (language, name) over the same content set
    settle alike, and so do two invocations of the API loader whose responses
    decode alike, whatever the shared bindings hold at either invocation;
    an invocation of either loader hands the shared bindings back as it got
    them, and none of its operations reads or writes one. *)
Theorem loaders_deterministic_and_isolated :
  (forall (w w' : world) (st st' : store)
          (ev ev' : Kit.load_event RoadmapPage.route_params),
      Kit.params ev = Kit.params ev' ->
      (forall s, resolve w s = resolve w' s) ->
      outcome (run w st (RoadmapPage.load ev))
      = outcome (run w' st' (RoadmapPage.load ev'))) /\
  (forall (w w' : world) (st st' : store)
          (ev ev' : Kit.load_event (list (string * string)))
          (response response' : response),
      network w (request_of ApiPage.endpoint None) = Fulfilled response ->
      network w' (request_of ApiPage.endpoint None) = Fulfilled response' ->
      json response = json response' ->
      outcome (run w st (ApiPage.load ev))
      = outcome (run w' st' (ApiPage.load ev'))) /\
  (forall (w : world) (st : store) (ev : Kit.load_event RoadmapPage.route_params),
      final (run w st (RoadmapPage.load ev)) = st /\
      Forall (fun e => touches_shared e = false)
        (trace (run w st (RoadmapPage.load ev)))) /\
  (forall (w : world) (st : store) (ev : Kit.load_event (list (string * string))),
      final (run w st (ApiPage.load ev)) = st /\
      Forall (fun e => touches_shared e = false)
        (trace (run w st (ApiPage.load ev)))).
Proof.
  split; [| split; [| split]].
  - intros w w' st st' ev ev' Hparams Hcontent.
    destruct (stateless_run (RoadmapPage.load ev) w st st'
                (roadmap_load_stateless ev)) as [-> _].
    rewrite !roadmap_load_run. cbn [outcome].
    rewrite Hparams, Hcontent. reflexivity.
  - intros w w' st st' ev ev' response response'.
    apply api_load_outcome_by_body.
  - intros w st ev. split.
    + apply stateless_final, roadmap_load_stateless.
    + apply stateless_trace, roadmap_load_stateless.
  - intros w st ev. split.
    + apply stateless_final, api_load_stateless.
    + apply stateless_trace, api_load_stateless.
Qed.

Lemma loaders_deterministic_and_isolated_witness :
  outcome (run Sample.offline Sample.empty_store
             (RoadmapPage.load (Sample.roadmap_event "en" "beginner-dapp-roadmap")))
  = outcome (run (Sample.answering 200 (Fulfilled Sample.foo_bar)) Sample.used_store
               (RoadmapPage.load (Sample.roadmap_event "en" "beginner-dapp-roadmap")))
  /\
  outcome (run (Sample.answering 200 (Fulfilled Sample.foo_bar)) Sample.empty_store
             (ApiPage.load (Sample.api_event [])))
  = outcome (run (Sample.answering 200 (Fulfilled Sample.foo_bar)) Sample.used_store
               (ApiPage.load (Sample.api_event []))).
Proof.
  split.
  - apply (proj1 loaders_deterministic_and_isolated).
    + reflexivity.
    + intros s. reflexivity.
  - apply (proj1 (proj2 loaders_deterministic_and_isolated)
             (Sample.answering 200 (Fulfilled Sample.foo_bar))
             (Sample.answering 200 (Fulfilled Sample.foo_bar))
             Sample.empty_store Sample.used_store
             (Sample.api_event []) (Sample.api_event [])
             {| status := 200; json := Fulfilled Sample.foo_bar |}
             {| status := 200; json := Fulfilled Sample.foo_bar |});
      reflexivity.
Defined.

(** ** The static record *)

(** C10. The record of the beginner dapp roadmap is consistent with the
    shape of a roadmap overview: its content type is [Roadmap]; it has
    exactly three chapters, the count its duration text [3 chapters]
    announces; every entry of its contents is tagged [Course] and has a url
    that is not empty. *)
Theorem overview_is_consistent (D : Content.Declarations) :
  Content.RoadmapOverview.contentType (@Content.overview D) = Content.Roadmap /\
  List.length (Content.RoadmapOverview.chapters (@Content.overview D)) = 3 /\
  Content.Metadata.duration (Content.RoadmapOverview.metadata (@Content.overview D))
  = "3 chapters" /\
  Content.Metadata.duration (Content.RoadmapOverview.metadata (@Content.overview D))
  = Content.chapters_text
      (List.length (Content.RoadmapOverview.chapters (@Content.overview D))) /\
  Forall (fun c => Content.Summary.contentType c = Content.Course /\
                   Content.Summary.url c <> "")
    (Content.RoadmapOverview.contents (@Content.overview D)) /\
  keys (@Content.js_overview D (@Content.overview D))
  = ["title"; "contentType"; "slug"; "excerpt"; "metadata"; "contents"; "chapters"].
Proof.
  repeat split; repeat constructor; simpl; discriminate.
Qed.

(** * Further properties of the loaders *)

(** ** Strings taken apart *)

Lemma append_inv_head (a b c : string) : (a ++ b = a ++ c)%string -> b = c.
Proof. induction a as [| x a IH]; simpl; intros H; [| injection H]; auto. Qed.

Lemma append_inv_tail (a b s : string) : (a ++ s = b ++ s)%string -> a = b.
Proof.
  revert b. induction a as [| x a IH]; intros [| y b] H; simpl in H.
  - reflexivity.
  - apply (f_equal String.length) in H. simpl in H.
    rewrite length_append in H. lia.
  - apply (f_equal String.length) in H. simpl in H.
    rewrite length_append in H. lia.
  - injection H as -> H. f_equal. auto.
Qed.

(** Two ways of cutting one string in two differ by a middle piece. *)
Lemma append_eq_append (a b c d : string) :
  (a ++ b = c ++ d)%string ->
  exists e : string,
    (c = a ++ e /\ b = e ++ d)%string \/ (a = c ++ e /\ d = e ++ b)%string.
Proof.
  revert c. induction a as [| x a IH]; intros c H; simpl in H.
  - exists c. left. auto.
  - destruct c as [| y c]; simpl in H.
    + exists (String x a). right. auto.
    + injection H as -> H. destruct (IH c H) as [e [[-> ->] | [-> ->]]];
        exists e; [left | right]; auto.
Qed.

Lemma has_slash_append (a b : string) :
  Segments.has_slash (a ++ "/" ++ b) = true.
Proof.
  induction a as [| x a IH]; simpl in *; auto.
  rewrite IH. apply orb_true_r.
Qed.

Lemma route_params_eq (p p' : RoadmapPage.route_params) :
  RoadmapPage.name p = RoadmapPage.name p' ->
  RoadmapPage.lang p = RoadmapPage.lang p' -> p = p'.
Proof. destruct p, p'; simpl; intros -> ->; reflexivity. Qed.

(** Two parameter pairs with one specifier are the same pair, or one
    pair's name goes on, after a [/], with what the other's language code
    starts with. *)
Lemma specifier_eq_cases (p p' : RoadmapPage.route_params) :
  RoadmapPage.specifier p = RoadmapPage.specifier p' ->
  p = p' \/
  (exists d : string,
      RoadmapPage.name p' = (RoadmapPage.name p ++ "/" ++ d)%string /\
      RoadmapPage.lang p = (d ++ "/" ++ RoadmapPage.lang p')%string) \/
  (exists d : string,
      RoadmapPage.name p = (RoadmapPage.name p' ++ "/" ++ d)%string /\
      RoadmapPage.lang p' = (d ++ "/" ++ RoadmapPage.lang p)%string).
Proof.
  unfold RoadmapPage.specifier. intros H.
  apply append_inv_head, append_eq_append in H.
  destruct H as [e [[Hname Hrest] | [Hname Hrest]]].
  - destruct e as [| c e]; simpl in Hrest.
    + left. injection Hrest as Hrest. apply append_inv_tail in Hrest.
      apply route_params_eq; [| assumption].
      rewrite Hname. clear. induction (RoadmapPage.name p); simpl; congruence.
    + right. left. exists e. injection Hrest as <- Hrest.
      change (e ++ String "/" (RoadmapPage.lang p' ++ "/overview.ts"))%string
        with (e ++ ("/" ++ RoadmapPage.lang p') ++ "/overview.ts")%string in Hrest.
      rewrite <- append_assoc in Hrest.
      apply append_inv_tail in Hrest. auto.
  - destruct e as [| c e]; simpl in Hrest.
    + left. injection Hrest as Hrest. apply append_inv_tail in Hrest.
      apply route_params_eq; [| auto].
      rewrite Hname. clear. induction (RoadmapPage.name p'); simpl; congruence.
    + right. right. exists e. injection Hrest as <- Hrest.
      change (e ++ String "/" (RoadmapPage.lang p ++ "/overview.ts"))%string
        with (e ++ ("/" ++ RoadmapPage.lang p) ++ "/overview.ts")%string in Hrest.
      rewrite <- append_assoc in Hrest.
      apply append_inv_tail in Hrest. auto.
Qed.

(** ** The resolver at its edges *)

(** X1. A module that resolves but has no export [overview] is not a
    failure to the resolver: it returns [{ roadmap: undefined }]. *)
Theorem resolver_missing_export_is_undefined
  (w : world) (st : store) (ev : Kit.load_event RoadmapPage.route_params)
  (roadmapFile : namespace) :
  resolve w (RoadmapPage.specifier (Kit.params ev)) = Fulfilled roadmapFile ->
  lookup "overview" roadmapFile = None ->
  outcome (run w st (RoadmapPage.load ev)) = Fulfilled (Obj [("roadmap", Undefined)]).
Proof.
  intros Hm Hx. rewrite roadmap_load_run. cbn [outcome].
  rewrite Hm. unfold get. rewrite Hx. reflexivity.
Qed.

Lemma resolver_missing_export_is_undefined_witness :
  outcome (run Segments.draft_world Sample.empty_store
             (RoadmapPage.load (Sample.roadmap_event "en" "draft")))
  = Fulfilled (Obj [("roadmap", Undefined)]).
Proof.
  apply (resolver_missing_export_is_undefined Segments.draft_world
           Sample.empty_store (Sample.roadmap_event "en" "draft")
           [("default", Obj [("title", Str "Draft")])]);
    reflexivity.
Defined.

(** X2. The resolver fails exactly when the import rejects, and its only
    failure is the [Error] with message [You missed it]: no resolved module,
    whatever it exports, makes it fail, and no other error ever leaves it. *)
Theorem resolver_fails_only_on_rejected_import
  (w : world) (st : store) (ev : Kit.load_event RoadmapPage.route_params)
  (failure : value) :
  outcome (run w st (RoadmapPage.load ev)) = Rejected failure <->
  failure = Exn "Error" "You missed it" None /\
  exists reason : value,
    resolve w (RoadmapPage.specifier (Kit.params ev)) = Rejected reason.
Proof.
  rewrite roadmap_load_run. cbn [outcome].
  destruct (resolve w _) as [roadmapFile | reason]; split.
  - discriminate.
  - intros [_ [reason H]]. discriminate H.
  - intros H. inversion H. split; [reflexivity | eauto].
  - intros [-> _]. reflexivity.
Qed.

Lemma resolver_fails_only_on_rejected_import_witness :
  outcome (run Segments.draft_world Sample.empty_store
             (RoadmapPage.load (Sample.roadmap_event "en" "beginner-dapp-roadmap")))
  = Rejected (Exn "Error" "You missed it" None) /\
  exists reason : value,
    Segments.draft_content
      "../../../../../lib/content/roadmaps/beginner-dapp-roadmap/en/overview.ts"
    = Rejected reason.
Proof.
  split.
  - apply (proj2 (resolver_fails_only_on_rejected_import Segments.draft_world
                    Sample.empty_store
                    (Sample.roadmap_event "en" "beginner-dapp-roadmap")
                    (Exn "Error" "You missed it" None))).
    split; [reflexivity |]. eexists. reflexivity.
  - apply (proj1 (resolver_fails_only_on_rejected_import Segments.draft_world
                    Sample.empty_store
                    (Sample.roadmap_event "en" "beginner-dapp-roadmap")
                    (Exn "Error" "You missed it" None))).
    reflexivity.
Defined.

(** ** Which parameters meet in one specifier *)

(** X3. Two (language, name) pairs are interpolated into the same import
    specifier exactly when they are the same pair or one pair's name is the
    other's name, a [/] and a piece [d], and the other's language code is
    [d], a [/] and the first pair's language code: such pairs, and only such,
    are resolved to one and the same module. *)
Theorem specifier_shared_exactly_by_shifted_parameters
  (p p' : RoadmapPage.route_params) :
  RoadmapPage.specifier p = RoadmapPage.specifier p' <->
  p = p' \/
  (exists d : string,
      RoadmapPage.name p' = (RoadmapPage.name p ++ "/" ++ d)%string /\
      RoadmapPage.lang p = (d ++ "/" ++ RoadmapPage.lang p')%string) \/
  (exists d : string,
      RoadmapPage.name p = (RoadmapPage.name p' ++ "/" ++ d)%string /\
      RoadmapPage.lang p' = (d ++ "/" ++ RoadmapPage.lang p)%string).
Proof.
  split; [apply specifier_eq_cases |].
  unfold RoadmapPage.specifier.
  intros [-> | [[d [-> ->]] | [d [-> ->]]]]; [reflexivity | |];
    f_equal; rewrite !append_assoc; reflexivity.
Qed.

Lemma specifier_shared_exactly_by_shifted_parameters_witness :
  RoadmapPage.specifier
    {| RoadmapPage.lang := "en"; RoadmapPage.name := "beginner/dapp" |}
  = RoadmapPage.specifier
      {| RoadmapPage.lang := "dapp/en"; RoadmapPage.name := "beginner" |}.
Proof.
  apply (proj2 (specifier_shared_exactly_by_shifted_parameters
                  {| RoadmapPage.lang := "en"; RoadmapPage.name := "beginner/dapp" |}
                  {| RoadmapPage.lang := "dapp/en"; RoadmapPage.name := "beginner" |})).
  right. right. exists "dapp". split; reflexivity.
Defined.

(** X4. When neither name holds a [/], or neither language code does,
    distinct (language, name) pairs are interpolated into distinct import
    specifiers. *)
Theorem specifier_injective_without_slash (p p' : RoadmapPage.route_params) :
  (Segments.has_slash (RoadmapPage.name p) = false /\
   Segments.has_slash (RoadmapPage.name p') = false) \/
  (Segments.has_slash (RoadmapPage.lang p) = false /\
   Segments.has_slash (RoadmapPage.lang p') = false) ->
  RoadmapPage.specifier p = RoadmapPage.specifier p' ->
  p = p'.
Proof.
  intros Hfree H.
  destruct (specifier_eq_cases p p' H) as [E | [[d [Hn Hl]] | [d [Hn Hl]]]];
    [assumption | |];
    pose proof (has_slash_append (RoadmapPage.name p) d) as Sn;
    pose proof (has_slash_append (RoadmapPage.name p') d) as Sn';
    pose proof (has_slash_append d (RoadmapPage.lang p)) as Sl;
    pose proof (has_slash_append d (RoadmapPage.lang p')) as Sl';
    rewrite <- ?Hn, <- ?Hl in *;
    destruct Hfree as [[F F'] | [F F']]; congruence.
Qed.

Lemma specifier_injective_without_slash_witness :
  {| RoadmapPage.lang := "en"; RoadmapPage.name := "beginner-dapp-roadmap" |}
  = {| RoadmapPage.lang := "en"; RoadmapPage.name := "beginner-dapp-roadmap" |}.
Proof.
  apply (specifier_injective_without_slash
           {| RoadmapPage.lang := "en"; RoadmapPage.name := "beginner-dapp-roadmap" |}
           {| RoadmapPage.lang := "en"; RoadmapPage.name := "beginner-dapp-roadmap" |}).
  - left. split; reflexivity.
  - reflexivity.
Defined.

(** ** The API loader's result *)

(** X5. When the API loader returns, its result is an object with the one
    property [content] and no other, and that property is what the body of
    the fetched response decoded to. *)
Theorem api_result_has_one_field
  (w : world) (st : store) (ev : Kit.load_event (list (string * string)))
  (v : value) :
  outcome (run w st (ApiPage.load ev)) = Fulfilled v ->
  keys v = ["content"] /\
  exists (response : response) (content : value),
    network w (request_of ApiPage.endpoint None) = Fulfilled response /\
    json response = Fulfilled content /\
    v = Obj [("content", content)].
Proof.
  rewrite api_load_run. cbn [outcome].
  destruct (network w _) as [response | reason]; [| discriminate].
  destruct (json response) as [content | reason] eqn:Hjson; [| discriminate].
  intros H. inversion H; subst. split; [reflexivity | eauto].
Qed.

Lemma api_result_has_one_field_witness :
  keys (Obj [("content", Sample.foo_bar)]) = ["content"] /\
  exists (response : response) (content : value),
    network (Sample.answering 200 (Fulfilled Sample.foo_bar))
      (request_of ApiPage.endpoint None) = Fulfilled response /\
    json response = Fulfilled content /\
    Obj [("content", Sample.foo_bar)] = Obj [("content", content)].
Proof.
  apply (api_result_has_one_field
           (Sample.answering 200 (Fulfilled Sample.foo_bar)) Sample.empty_store
           (Sample.api_event [])).
  reflexivity.
Defined.
